(** * vapi-lead-agent: the webhook endpoint and the response generator

    A shallow embedding of [src/SRC/index.ts]: the POST handler of
    [/api/vapi/webhook] and [generateAIResponse], over a small model of
    the JavaScript values the handler inspects, the effects it performs
    (console output, the OpenAI client, the express response object, the
    process environment) and JavaScript's [throw] / [try]-[catch]. *)

From Stdlib Require Import ZArith Bool.
From Stdlib Require Import Floats.PrimFloat.
From stdpp Require Import base option list strings gmap.

Open Scope Z_scope.
Set Warnings "-inexact-float".

(** ** JavaScript values *)

(** What [express.json()] leaves in [req.body], and what can be thrown:
    the JSON values, a number being an IEEE double, plus [undefined].  An
    object is the list of its properties. *)
#[warning="-register-all"]
Inductive JSValue : Type :=
  | JUndefined
  | JNull
  | JBool (b : bool)
  | JNumber (n : float)
  | JString (s : string)
  | JArray (items : list JSValue)
  | JObject (props : list (string * JSValue)).

(** [T | null | undefined], the type of the fields of a chat completion
    that the generator reads through optional chaining. *)
Inductive Nullable (T : Type) : Type :=
  | Undefined
  | Null
  | Val (x : T).
Arguments Undefined {T}.
Arguments Null {T}.
Arguments Val {T} x.

Module JS.

(** [ToBoolean]: what [!v] and [v || w] test. *)
Definition ToBoolean (v : JSValue) : bool :=
  match v with
  | JUndefined | JNull => false
  | JBool b => b
  | JNumber n => negb (is_zero n || is_nan n)
  | JString s => negb (String.eqb s "")
  | JArray _ | JObject _ => true
  end.

(** [v === null || v === undefined]. *)
Definition nullish (v : JSValue) : bool :=
  match v with
  | JUndefined | JNull => true
  | _ => false
  end.

(** The own property [k] of an object; of two bindings of [k] the later
    one counts, as [JSON.parse] has it. *)
Fixpoint own (k : string) (props : list (string * JSValue)) : option JSValue :=
  match props with
  | [] => None
  | (k', v) :: rest =>
      match own k rest with
      | Some v' => Some v'
      | None => if String.eqb k k' then Some v else None
      end
  end.

(** [v.k] on a value that is neither [null] nor [undefined], for a
    name [k] that no built-in prototype defines ([message], [type] and
    [transcript] are such names): an own property of an object, and
    [undefined] on arrays and primitives. *)
Definition get (v : JSValue) (k : string) : JSValue :=
  match v with
  | JObject props => default JUndefined (own k props)
  | _ => JUndefined
  end.

(** [v?.k]. *)
Definition opt_get (v : JSValue) (k : string) : JSValue :=
  if nullish v then JUndefined else get v k.

(** [v === s] for a string literal [s]. *)
Definition strict_eq_string (v : JSValue) (s : string) : bool :=
  match v with
  | JString t => String.eqb t s
  | _ => false
  end.

(** [a || b]. *)
Definition or (a b : JSValue) : JSValue :=
  if ToBoolean a then a else b.

(** [a?.f] on typed data: [undefined] when [a] is nullish. *)
Definition opt_chain {A B} (a : Nullable A) (f : A -> Nullable B)
  : Nullable B :=
  match a with
  | Val x => f x
  | _ => Undefined
  end.

(** [l[i]]: [undefined] past the end of the array. *)
Definition index {A} (i : nat) (l : list (Nullable A)) : Nullable A :=
  match l !! i with
  | Some x => x
  | None => Undefined
  end.

(** [a ?? d]. *)
Definition coalesce {A} (a : Nullable A) (d : A) : A :=
  match a with
  | Val x => x
  | _ => d
  end.

(** The [TypeError] V8 throws when a property of [null] or [undefined]
    is read. *)
Definition TypeError (msg : string) : JSValue :=
  JObject [("name", JString "TypeError"); ("message", JString msg)].

Definition type_name (v : JSValue) : string :=
  match v with
  | JNull => "null"
  | _ => "undefined"
  end.

End JS.

Infix "?." := JS.opt_get (at level 25, left associativity).
Infix "?.." := JS.opt_chain (at level 25, left associativity).
Infix "???" := JS.coalesce (at level 26, left associativity).

(** ** The OpenAI client, as the generator uses it *)

Record ChatMessage := {
  role : string;
  content : JSValue;
}.

(** The argument of [openai.chat.completions.create]. *)
Record ChatRequest := {
  model : string;
  messages : list ChatMessage;
  temperature : float;
  max_tokens : Z;
}.

(** The part of the SDK's [ChatCompletion] the generator reads,
    [completion?.choices?.[0]?.message?.content]: the content is typed
    [string | null], and every step may be missing, which is what the
    optional chaining guards against. *)
Record CompletionMessage := { message_content : Nullable string }.
Record Choice := { choice_message : Nullable CompletionMessage }.
Record ChatCompletion := { choices : Nullable (list (Nullable Choice)) }.

(** How a call into the SDK ends: the awaited promise resolves, or the
    call throws / the promise rejects with some value. *)
Inductive Outcome (T : Type) : Type :=
  | Resolves (x : T)
  | Rejects (e : JSValue).
Arguments Resolves {T} x.
Arguments Rejects {T} e.

(** ** Effects *)

Inductive LogArg : Type :=
  | Log (v : JSValue)
  | Stringify (v : JSValue) (indent : Z).   (* JSON.stringify(v, null, indent) *)

(** What the process does to the outside, each use of the SDK with how
    it ended. *)
Inductive Effect : Type :=
  | ConsoleLog (args : list LogArg)
  | ConsoleError (args : list LogArg)
  | NewOpenAI (apiKey : option string) (threw : option JSValue)
  | ChatCompletionsCreate (apiKey : option string) (request : ChatRequest)
      (outcome : Outcome (Nullable ChatCompletion)).

(** The external completion provider behind the SDK.  It is opaque: what
    it answers may depend on everything that happened before (the model
    samples at temperature 0.7, keys get revoked, the network fails). *)
Record Provider := {
  (** [new OpenAI({ apiKey })]: [Some e] when the constructor throws [e]. *)
  construct : list Effect -> option string -> option JSValue;
  (** [await openai.chat.completions.create(request)] on a client built
      with [apiKey]. *)
  create : list Effect -> option string -> ChatRequest
           -> Outcome (Nullable ChatCompletion);
}.

(** One HTTP response written to the socket. *)
Record HttpReply := {
  status : Z;
  body : JSValue;
}.

(** The express response object of the request being handled:
    [res.status(c)] sets the status code, [res.json(b)] sends. *)
Record Res := {
  statusCode : Z;
  sent : list HttpReply;
}.

Definition fresh_res : Res := {| statusCode := 200; sent := [] |}.

(** What a handler can see and change: [process.env], what has been
    done so far (oldest first), and [res]. *)
Record World := {
  process_env : gmap string string;
  effects : list Effect;
  res : Res;
}.

Definition add_effects (w : World) (es : list Effect) : World :=
  {| process_env := process_env w;
     effects := effects w ++ es;
     res := res w |}.

Definition set_res (w : World) (r : Res) : World :=
  {| process_env := process_env w; effects := effects w; res := r |}.

(** ** Computations that may throw *)

(** How a computation ends: normally with a value, or by a [throw]. *)
Inductive Result (A : Type) : Type :=
  | Normal (a : A)
  | Throw (e : JSValue).
Arguments Normal {A} a.
Arguments Throw {A} e.

Definition Eff (A : Type) : Type := World -> Result A * World.

Definition ret {A} (a : A) : Eff A := fun w => (Normal a, w).

Definition bind {A B} (m : Eff A) (k : A -> Eff B) : Eff B :=
  fun w =>
    match m w with
    | (Normal a, w') => k a w'
    | (Throw e, w') => (Throw e, w')
    end.

Definition throw {A} (e : JSValue) : Eff A := fun w => (Throw e, w).

(** [try { m } catch (error) { h error }]. *)
Definition try_catch {A} (m : Eff A) (h : JSValue -> Eff A) : Eff A :=
  fun w =>
    match m w with
    | (Normal a, w') => (Normal a, w')
    | (Throw e, w') => h e w'
    end.

Declare Scope eff_scope.
Delimit Scope eff_scope with eff.
Bind Scope eff_scope with Eff.
Notation "'let*' x := m 'in' k" := (bind m (fun x => k))
  (at level 10, x name, m at level 100, k at level 200) : eff_scope.
Notation "m ;; k" := (bind m (fun _ => k))
  (at level 100, k at level 200, right associativity) : eff_scope.
Open Scope eff_scope.

Definition console_log (args : list LogArg) : Eff unit :=
  fun w => (Normal tt, add_effects w [ConsoleLog args]).

Definition console_error (args : list LogArg) : Eff unit :=
  fun w => (Normal tt, add_effects w [ConsoleError args]).

(** [process.env.KEY], read when the expression is evaluated. *)
Definition getenv (key : string) : Eff (option string) :=
  fun w => (Normal (process_env w !! key), w).

(** [res.status(code)]. *)
Definition res_status (code : Z) : Eff unit :=
  fun w => (Normal tt,
            set_res w {| statusCode := code; sent := sent (res w) |}).

(** [res.json(b)]: send [b] with the status code set so far. *)
Definition send (r : Res) (b : JSValue) : Res :=
  {| statusCode := statusCode r;
     sent := sent r ++ [{| status := statusCode r; body := b |}] |}.

Definition res_json (b : JSValue) : Eff unit :=
  fun w => (Normal tt, set_res w (send (res w) b)).

(** [v.k], which throws on [null] and [undefined]. *)
Definition member (v : JSValue) (k : string) : Eff JSValue :=
  if JS.nullish v
  then throw (JS.TypeError ("Cannot read properties of " +:+ JS.type_name v
                            +:+ " (reading '" +:+ k +:+ "')"))
  else ret (JS.get v k).

(** [const { k } = v], where [v] is written [src] in the source. *)
Definition destructure (v : JSValue) (src k : string) : Eff JSValue :=
  if JS.nullish v
  then throw (JS.TypeError ("Cannot destructure property '" +:+ k +:+ "' of '"
                            +:+ src +:+ "' as it is " +:+ JS.type_name v +:+ "."))
  else ret (JS.get v k).

(** ** The program *)

(** The greeting of the first turn (line 62). *)
Definition GREETING : string :=
  "Hello! Thanks for calling. I'm here to share how we partner with business owners like yourself to unlock new growth opportunities. To start, I'd love to learn about your business. What industry are you in?".

(** The reply when the completion carries no content (line 107). *)
Definition FALLBACK : string :=
  "I'm here to help. Could you tell me more about your business?".

(** The reply when the provider call fails (line 111). *)
Definition APOLOGY : string :=
  "I apologize, I'm having a brief technical issue. Could you repeat that?".

(** The system-role instruction (lines 74-94), line breaks and the two
    blanks after "growth stage" included. *)
Definition SYSTEM_PROMPT : string :=
  "You are a knowledgeable business advisor helping business owners explore growth and partnership opportunities.

Your personality:
- Warm and professional, like a trusted consultant
- Curious about their business
- Helpful and educational, not pushy
- Ask thoughtful follow-up questions

Guidelines:
- Keep responses brief (2-3 sentences) since this is a phone call
- Ask ONE question at a time
- Listen and acknowledge what they share
- Share relevant insights when appropriate
- Help them understand if this could be a good fit

Topics to explore naturally:
- Their industry and business model
- Current challenges or goals
- Business size and growth stage  
- Their vision for the future
- What would make them consider a partnership".

(** The client object: it keeps the key it was built with. *)
Record OpenAI := { client_apiKey : option string }.

(** [completion?.choices?.[0]?.message?.content] (line 106). *)
Definition content_of (completion : Nullable ChatCompletion) : Nullable string :=
  completion ?.. choices ?.. JS.index 0 ?.. choice_message ?.. message_content.

(** The request of lines 69-103. *)
Definition chat_request (userMessage : JSValue) : ChatRequest :=
  {| model := "gpt-4";
     messages := [ {| role := "system"; content := JString SYSTEM_PROMPT |};
                   {| role := "user"; content := userMessage |} ];
     temperature := 0.7;
     max_tokens := 150 |}.

(** What happens to the process after startup: a POST to the webhook
    arrives with the given parsed body, or something outside this
    program assigns to [process.env] (the program itself never does). *)
Inductive ServerEvent : Type :=
  | Post (req_body : JSValue)
  | EnvAssign (key value : string).

Section Program.

Variable provider : Provider.

(** [new OpenAI({ apiKey })]. *)
Definition new_OpenAI (apiKey : option string) : Eff OpenAI :=
  fun w =>
    let threw := construct provider (effects w) apiKey in
    (match threw with
     | Some e => Throw e
     | None => Normal {| client_apiKey := apiKey |}
     end,
     add_effects w [NewOpenAI apiKey threw]).

(** [await openai.chat.completions.create(request)]. *)
Definition chat_completions_create (openai : OpenAI) (request : ChatRequest)
  : Eff (Nullable ChatCompletion) :=
  fun w =>
    let outcome := create provider (effects w) (client_apiKey openai) request in
    (match outcome with
     | Resolves completion => Normal completion
     | Rejects e => Throw e
     end,
     add_effects w [ChatCompletionsCreate (client_apiKey openai) request outcome]).

(** [generateAIResponse] (lines 59-113). *)
Definition generateAIResponse (userMessage : JSValue) : Eff string :=
  if negb (JS.ToBoolean userMessage) then
    ret GREETING
  else
    try_catch
      (let* apiKey := getenv "OPENAI_API_KEY" in
       let* openai := new_OpenAI apiKey in
       let* completion :=
         chat_completions_create openai (chat_request userMessage) in
       let content := content_of completion in
       ret (content ??? FALLBACK))
      (fun error =>
         console_error [Log (JString "OpenAI error:"); Log error];;
         ret APOLOGY).

(** The body of the handler's [try] (lines 32-50). *)
Definition webhook_try (req_body : JSValue) : Eff unit :=
  console_log [Log (JString "📞 Received call from Vapi")];;
  console_log [Log (JString "Data:"); Stringify req_body 2];;
  let* message := destructure req_body "req.body" "message" in
  if JS.strict_eq_string (message ?. "type") "assistant-request" then
    let* transcript := member message "transcript" in
    let userMessage := JS.or transcript (JString "") in
    console_log [Log (JString "👤 User said:"); Log userMessage];;
    let* response := generateAIResponse userMessage in
    console_log [Log (JString "🤖 AI responds:"); Log (JString response)];;
    res_json (JObject [("response", JString response)])
  else
    res_json (JObject [("received", JBool true)]).

(** The handler's [catch] (lines 52-55). *)
Definition webhook_catch (error : JSValue) : Eff unit :=
  console_error [Log (JString "❌ Error:"); Log error];;
  res_status 500;;
  res_json (JObject [("error", JString "Internal server error")]).

(** [app.post('/api/vapi/webhook', ...)] (lines 30-56). *)
Definition webhook (req_body : JSValue) : Eff unit :=
  try_catch (webhook_try req_body) webhook_catch.

(** ** The running server *)

(** One route invocation, on a response object of its own: the
    replies written for this request. *)
Definition post_webhook (req_body : JSValue) (w : World)
  : list HttpReply * World :=
  let w' := snd (webhook req_body (set_res w fresh_res)) in
  (sent (res w'), w').

Definition step (ev : ServerEvent) (w : World) : list HttpReply * World :=
  match ev with
  | Post req_body => post_webhook req_body w
  | EnvAssign key value =>
      ([], {| process_env := <[key := value]> (process_env w);
              effects := effects w;
              res := res w |})
  end.

(** The replies to a sequence of events, one list per event. *)
Fixpoint run (evs : list ServerEvent) (w : World)
  : list (list HttpReply) * World :=
  match evs with
  | [] => ([], w)
  | ev :: rest =>
      let '(replies, w1) := step ev w in
      let '(more, w2) := run rest w1 in
      (replies :: more, w2)
  end.

End Program.

(** [dotenv.config()] (line 7): the variables of the [.env] file are
    added to [process.env]; one already set keeps its value. *)
Definition dotenv_config (dotenv_file : gmap string string)
    (env : gmap string string) : gmap string string :=
  env ∪ dotenv_file.

(** The process once the module has been loaded. *)
Definition startup (os_env dotenv_file : gmap string string) : World :=
  {| process_env := dotenv_config dotenv_file os_env;
     effects := [];
     res := fresh_res |}.

(** ** Vocabulary of the properties *)

(** What was done between two states of the process. *)
Definition effects_since (w w' : World) : list Effect :=
  drop (length (effects w)) (effects w').

(** [message?.type === 'assistant-request'] for the [message] of a body
    (lines 35 and 38). *)
Definition is_assistant_request (req_body : JSValue) : bool :=
  JS.strict_eq_string (JS.get req_body "message" ?. "type") "assistant-request".

(** [message.transcript] for the [message] of a body (line 39). *)
Definition transcript_of (req_body : JSValue) : JSValue :=
  JS.get (JS.get req_body "message") "transcript".

(** The keys with which clients were built and completions requested. *)
Definition credential_of (e : Effect) : option (option string) :=
  match e with
  | NewOpenAI apiKey _ => Some apiKey
  | ChatCompletionsCreate apiKey _ _ => Some apiKey
  | ConsoleLog _ | ConsoleError _ => None
  end.

Definition credentials_used (effs : list Effect) : list (option string) :=
  omap credential_of effs.

(** The requests sent to the provider. *)
Definition request_of (e : Effect) : option ChatRequest :=
  match e with
  | ChatCompletionsCreate _ request _ => Some request
  | NewOpenAI _ _ | ConsoleLog _ | ConsoleError _ => None
  end.

Definition requests_sent (effs : list Effect) : list ChatRequest :=
  omap request_of effs.

(** The uses of the SDK: clients built and completions requested. *)
Definition is_provider_use (e : Effect) : bool :=
  match e with
  | NewOpenAI _ _ | ChatCompletionsCreate _ _ _ => true
  | ConsoleLog _ | ConsoleError _ => false
  end.

Definition provider_uses (effs : list Effect) : list Effect :=
  List.filter is_provider_use effs.

(** A use of the SDK that failed: the constructor threw, or the
    completion request was rejected. *)
Definition is_provider_failure (e : Effect) : bool :=
  match e with
  | NewOpenAI _ (Some _) => true
  | ChatCompletionsCreate _ _ (Rejects _) => true
  | _ => false
  end.

(** How the provider behaved, as far as a reply can depend on it: it
    failed, or it answered with some content (possibly none). *)
Inductive Behaviour : Type :=
  | Failed
  | Answered (content : Nullable string).

Definition behaviour_of (e : Effect) : option Behaviour :=
  match e with
  | NewOpenAI _ (Some _) => Some Failed
  | ChatCompletionsCreate _ _ (Rejects _) => Some Failed
  | ChatCompletionsCreate _ _ (Resolves completion) =>
      Some (Answered (content_of completion))
  | _ => None
  end.

Definition provider_behaviour (effs : list Effect) : list Behaviour :=
  omap behaviour_of effs.

(** The three bodies the handler writes. *)
Definition reply_object (response : string) : JSValue :=
  JObject [("response", JString response)].
Definition acknowledgment : JSValue := JObject [("received", JBool true)].
Definition error_object : JSValue :=
  JObject [("error", JString "Internal server error")].

(** The lines the handler and the generator write to the console. *)
Definition log_received : Effect :=
  ConsoleLog [Log (JString "📞 Received call from Vapi")].
Definition log_data (req_body : JSValue) : Effect :=
  ConsoleLog [Log (JString "Data:"); Stringify req_body 2].
Definition log_user (userMessage : JSValue) : Effect :=
  ConsoleLog [Log (JString "👤 User said:"); Log userMessage].
Definition log_ai (response : string) : Effect :=
  ConsoleLog [Log (JString "🤖 AI responds:"); Log (JString response)].
Definition log_openai_error (error : JSValue) : Effect :=
  ConsoleError [Log (JString "OpenAI error:"); Log error].
Definition log_error (error : JSValue) : Effect :=
  ConsoleError [Log (JString "❌ Error:"); Log error].

(** The four ways through [generateAIResponse]: what it returns and what
    it does, for an utterance and the key found in [process.env]. *)
Inductive generator_run (userMessage : JSValue) (apiKey : option string)
  : string -> list Effect -> Prop :=
  | run_greeting :
      JS.ToBoolean userMessage = false ->
      generator_run userMessage apiKey GREETING []
  | run_constructor_throws (e : JSValue) :
      JS.ToBoolean userMessage = true ->
      generator_run userMessage apiKey APOLOGY
        [NewOpenAI apiKey (Some e); log_openai_error e]
  | run_rejected (e : JSValue) :
      JS.ToBoolean userMessage = true ->
      generator_run userMessage apiKey APOLOGY
        [NewOpenAI apiKey None;
         ChatCompletionsCreate apiKey (chat_request userMessage) (Rejects e);
         log_openai_error e]
  | run_resolved (completion : Nullable ChatCompletion) :
      JS.ToBoolean userMessage = true ->
      generator_run userMessage apiKey (content_of completion ??? FALLBACK)
        [NewOpenAI apiKey None;
         ChatCompletionsCreate apiKey (chat_request userMessage)
           (Resolves completion)].

(** The state a handled request leaves behind. *)
Definition handled (w : World) (code : Z) (replies : list HttpReply)
    (es : list Effect) : list HttpReply * World :=
  (replies,
   {| process_env := process_env w;
      effects := effects w ++ es;
      res := {| statusCode := code; sent := replies |} |}).

(** The shapes of a reply: the generated text, the acknowledgment, the
    error. *)
Inductive response_shape : HttpReply -> Prop :=
  | shape_reply (response : string) :
      response_shape {| status := 200; body := reply_object response |}
  | shape_acknowledgment :
      response_shape {| status := 200; body := acknowledgment |}
  | shape_error :
      response_shape {| status := 500; body := error_object |}.

(** ** Stubs and sample requests *)

(** A provider that builds every client and resolves every request with
    the same completion. *)
Definition stub_resolving (completion : Nullable ChatCompletion) : Provider :=
  {| construct := fun _ _ => None;
     create := fun _ _ _ => Resolves completion |}.

(** A provider that builds every client and rejects every request. *)
Definition stub_rejecting (error : JSValue) : Provider :=
  {| construct := fun _ _ => None;
     create := fun _ _ _ => Rejects error |}.

(** A completion with one choice, whose message has the given content. *)
Definition completion_with (content : Nullable string)
  : Nullable ChatCompletion :=
  Val {| choices :=
           Val [Val {| choice_message :=
                         Val {| message_content := content |} |}] |}.

(** [{message: {type: 'assistant-request', transcript}}]. *)
Definition assistant_request (transcript : JSValue) : JSValue :=
  JObject [("message", JObject [("type", JString "assistant-request");
                                ("transcript", transcript)])].

(** A process started with a key in its environment and no [.env] file. *)
Definition sample_world : World :=
  startup {["OPENAI_API_KEY" := "sk-startup"]} ∅.

(** ** The rest of the module *)

Section Port.

(** [Number(s)] for a string [s], the runtime's conversion. *)
Variable StringToNumber : string -> float.

(** [Number(process.env.KEY)]: [Number(undefined)] is [NaN]. *)
Definition ToNumber (v : option string) : float :=
  match v with
  | Some s => StringToNumber s
  | None => nan
  end.

(** [Number(process.env.PORT) || 3000] (line 10), for the environment
    the module is loaded in. *)
Definition PORT (env : gmap string string) : JSValue :=
  JS.or (JNumber (ToNumber (env !! "PORT"))) (JNumber 3000).

End Port.

(** [app.get('/', ...)] (lines 17-23); [timestamp] is what
    [new Date().toISOString()] gives when the handler runs. *)
Definition get_root (timestamp : string) : Eff unit :=
  res_json (JObject [("status", JString "ok");
                     ("message",
                      JString "Vapi Lead Nurture Agent API is running!");
                     ("timestamp", JString timestamp)]).

(** [app.get('/api/health', ...)] (lines 25-27). *)
Definition get_health : Eff unit :=
  res_json (JObject [("status", JString "healthy")]).

(** What [express.json()] (line 14) makes of a request before any
    route is entered.  It leaves the parsed body in [req.body] (when
    there was nothing to parse, [undefined] or [{}] by the version of
    express); or it refuses the body (malformed JSON with status 400, a
    body over the limit with 413, an unsupported encoding or charset
    with 415) and passes its error on, and then no route runs. *)
Inductive BodyParser : Type :=
  | Parsed (req_body : JSValue)
  | Refused (status : Z) (error : JSValue).

(** What goes back to the client: the JSON a handler gave to
    [res.json], nothing (a 304), or the HTML page that express's default
    error handler builds from an error (from its stack, or under
    [NODE_ENV=production] from its status alone). *)
Inductive Payload : Type :=
  | Json (v : JSValue)
  | NoBody
  | ErrorPage (error : JSValue).

Record Answer := {
  answer_status : Z;
  payload : Payload;
}.

(** The module registers no error middleware, so an error passed on by
    the body parser is answered by express's default error handler,
    with the status the error carries. *)
Definition default_error_answer (status : Z) (error : JSValue) : Answer :=
  {| answer_status := status; payload := ErrorPage error |}.

(** What [res.json] puts on the wire.  For a GET whose status is 2xx or
    304 it compares the entity tag of the body with the validators of
    the request (an [If-None-Match] that matches: [req.fresh]) and
    answers a fresh request 304 without the body.  [validated] says
    that the request is a GET whose validators match; express never
    finds a POST fresh. *)
Definition on_the_wire (validated : bool) (reply : HttpReply) : Answer :=
  if validated
     && (((200 <=? status reply) && (status reply <? 300))
         || (status reply =? 304))
  then {| answer_status := 304; payload := NoBody |}
  else {| answer_status := status reply; payload := Json (body reply) |}.

(** A POST to [/api/vapi/webhook]: the body parser, then the route.
    Only what the program's own code does is added to [effects]; what
    express's default error handler prints is not. *)
Definition post_pipeline (provider : Provider) (parser : BodyParser)
    (w : World) : list Answer * World :=
  match parser with
  | Refused status error => ([default_error_answer status error], w)
  | Parsed req_body =>
      let '(replies, w') := post_webhook provider req_body w in
      (on_the_wire false <$> replies, w')
  end.

(** The three routes of [app]. *)
Inductive Route : Type :=
  | GetRoot (timestamp : string)
  | GetHealth
  | PostWebhook.

(** A GET or POST request that matches one of the routes: what the body
    parser makes of it, whether it is a GET whose validators match the
    entity tag of the body its handler gives to [res.json], and its
    route. *)
Record Request := {
  body_parser : BodyParser;
  fresh : bool;
  route : Route;
}.

(** The middleware, then the route's handler on a response object of
    its own. *)
Definition app (provider : Provider) (rq : Request) (w : World)
  : list Answer * World :=
  match body_parser rq, route rq with
  | Refused status error, _ => ([default_error_answer status error], w)
  | Parsed _, GetRoot timestamp =>
      let w' := snd (get_root timestamp (set_res w fresh_res)) in
      (on_the_wire (fresh rq) <$> sent (res w'), w')
  | Parsed _, GetHealth =>
      let w' := snd (get_health (set_res w fresh_res)) in
      (on_the_wire (fresh rq) <$> sent (res w'), w')
  | Parsed req_body, PostWebhook =>
      post_pipeline provider (Parsed req_body) w
  end.

(** The answers to a sequence of requests, one list per request. *)
Fixpoint serve (provider : Provider) (rqs : list Request) (w : World)
  : list (list Answer) * World :=
  match rqs with
  | [] => ([], w)
  | rq :: rest =>
      let '(answers, w1) := app provider rq w in
      let '(more, w2) := serve provider rest w1 in
      (answers :: more, w2)
  end.

(** The requests whose handling gets as far as the SDK: the webhook
    posts, with a parsed body, that ask for a reply to a (truthy)
    utterance. *)
Definition reaches_provider (rq : Request) : bool :=
  match body_parser rq, route rq with
  | Parsed req_body, PostWebhook =>
      is_assistant_request req_body && JS.ToBoolean (transcript_of req_body)
  | _, _ => false
  end.

(** The error the body parser passes on for a body that is not JSON. *)
Definition malformed_json_error : JSValue :=
  JObject [("name", JString "SyntaxError");
           ("message", JString "Unexpected token h in JSON at position 1");
           ("status", JNumber 400);
           ("type", JString "entity.parse.failed")].

(** The fixed texts of the generator. *)
Definition fixed_texts : list string := [GREETING; FALLBACK; APOLOGY].

(** ** Proof automation *)

(** Run the monadic code of the whole program, or of the handler with
    the generator left folded, on a symbolic state. *)
Ltac run_eff :=
  cbv [post_webhook webhook webhook_try webhook_catch generateAIResponse
       try_catch bind ret throw console_log console_error getenv
       res_status res_json member destructure new_OpenAI
       chat_completions_create add_effects set_res fresh_res];
  cbn [fst snd process_env effects res statusCode sent client_apiKey].

Ltac world_eq :=
  cbn [fst snd process_env effects res statusCode sent client_apiKey];
  rewrite <- ?app_assoc; reflexivity.

Ltac run_handler :=
  cbv [webhook webhook_try webhook_catch
       try_catch bind ret throw console_log console_error
       res_status res_json member destructure add_effects set_res fresh_res];
  cbn [fst snd process_env effects res statusCode sent].

(** Case analysis on a derivation. *)
Ltac inv_run H :=
  inversion H; subst; clear H.

(** Membership in an explicit list of effects. *)
Ltac in_log :=
  set_unfold; intuition (simplify_eq; eauto 10).

(** * Properties *)

(** ** The effect log only grows *)

Lemma effects_since_app (w w' : World) (es : list Effect) :
  effects w' = effects w ++ es -> effects_since w w' = es.
Proof. unfold effects_since. intros ->. by rewrite drop_app_length. Qed.

(** ** What a body has to be for the handler to reach the generator *)

Lemma assistant_request_message (req_body : JSValue) :
  is_assistant_request req_body = true ->
  JS.nullish req_body = false /\ JS.nullish (JS.get req_body "message") = false.
Proof.
  unfold is_assistant_request, JS.opt_get. intros H. split.
  - destruct req_body; try reflexivity; discriminate H.
  - destruct (JS.nullish (JS.get req_body "message")); [discriminate H | done].
Qed.

Lemma assistant_request_type (req_body : JSValue) :
  is_assistant_request req_body = true ->
  JS.strict_eq_string (JS.get req_body "message" ?. "type") "assistant-request"
  = true.
Proof. done. Qed.

Section Generator.

Variable provider : Provider.

(** The first turn: nothing is done at all. *)
Lemma generateAIResponse_falsy (userMessage : JSValue) (w : World) :
  JS.ToBoolean userMessage = false ->
  generateAIResponse provider userMessage w = (Normal GREETING, w).
Proof. intros H. unfold generateAIResponse. by rewrite H. Qed.

(** A later turn, by how the SDK behaves. *)
Lemma generateAIResponse_truthy (userMessage : JSValue) (w : World) :
  JS.ToBoolean userMessage = true ->
  generateAIResponse provider userMessage w =
    let apiKey := process_env w !! "OPENAI_API_KEY" in
    let request := chat_request userMessage in
    match construct provider (effects w) apiKey with
    | Some e =>
        (Normal APOLOGY,
         add_effects w
           [NewOpenAI apiKey (Some e);
            ConsoleError [Log (JString "OpenAI error:"); Log e]])
    | None =>
        match create provider (effects w ++ [NewOpenAI apiKey None])
                apiKey request with
        | Resolves completion =>
            (Normal (content_of completion ??? FALLBACK),
             add_effects w
               [NewOpenAI apiKey None;
                ChatCompletionsCreate apiKey request (Resolves completion)])
        | Rejects e =>
            (Normal APOLOGY,
             add_effects w
               [NewOpenAI apiKey None;
                ChatCompletionsCreate apiKey request (Rejects e);
                ConsoleError [Log (JString "OpenAI error:"); Log e]])
        end
    end.
Proof.
  intros H. unfold generateAIResponse. rewrite H. cbn [negb]. run_eff.
  destruct (construct provider (effects w) _) as [e|].
  - world_eq.
  - destruct (create provider _ _ _) as [completion|e]; world_eq.
Qed.

(** The generator always returns, along one of its four ways. *)
Lemma generateAIResponse_run (userMessage : JSValue) (w : World) :
  exists response es,
    generator_run userMessage (process_env w !! "OPENAI_API_KEY") response es
    /\ generateAIResponse provider userMessage w
       = (Normal response, add_effects w es).
Proof.
  destruct (JS.ToBoolean userMessage) eqn:Hb.
  - rewrite (generateAIResponse_truthy _ _ Hb). cbv zeta.
    destruct (construct provider _ _) as [e|];
      [| destruct (create provider _ _ _) as [completion|e] ];
      eexists _, _; (split; [| reflexivity]); by constructor.
  - rewrite (generateAIResponse_falsy _ _ Hb).
    exists GREETING, []. split; [by constructor |].
    unfold add_effects. rewrite app_nil_r. by destruct w.
Qed.

End Generator.

Section Handler.

Variable provider : Provider.

(** No parsed body at all: the destructuring of line 35 throws. *)
Lemma webhook_try_nullish (req_body : JSValue) (w : World) :
  JS.nullish req_body = true ->
  exists error,
    webhook_try provider req_body w
    = (Throw error, add_effects w [log_received; log_data req_body]).
Proof.
  intros Hn. run_handler. rewrite Hn. eexists. f_equal. world_eq.
Qed.

(** Any other event: the acknowledgment. *)
Lemma webhook_try_other (req_body : JSValue) (w : World) :
  JS.nullish req_body = false ->
  is_assistant_request req_body = false ->
  webhook_try provider req_body w
  = (Normal tt,
     set_res (add_effects w [log_received; log_data req_body])
       (send (res w) acknowledgment)).
Proof.
  intros Hn Ht. unfold is_assistant_request in Ht.
  run_handler. rewrite Hn, Ht. f_equal. world_eq.
Qed.

(** An assistant request: the generator's answer. *)
Lemma webhook_try_assistant_request (req_body : JSValue) (w : World) :
  is_assistant_request req_body = true ->
  let userMessage := JS.or (transcript_of req_body) (JString "") in
  exists response es,
    generator_run userMessage (process_env w !! "OPENAI_API_KEY") response es
    /\ webhook_try provider req_body w
       = (Normal tt,
          set_res
            (add_effects w
               ([log_received; log_data req_body; log_user userMessage]
                ++ es ++ [log_ai response]))
            (send (res w) (reply_object response))).
Proof.
  intros Ht userMessage.
  destruct (assistant_request_message _ Ht) as [Hn Hm].
  pose proof (assistant_request_type _ Ht) as Hty.
  run_handler. rewrite Hn, Hty, Hm.
  fold (transcript_of req_body). fold userMessage.
  match goal with
  | |- context [generateAIResponse provider userMessage ?W] =>
      destruct (generateAIResponse_run provider userMessage W)
        as (response & es & Hrun & Hgen)
  end.
  rewrite Hgen. exists response, es. split; [exact Hrun |].
  unfold add_effects. f_equal. world_eq.
Qed.

(** The route, case by case. *)
Lemma post_webhook_nullish (req_body : JSValue) (w : World) :
  JS.nullish req_body = true ->
  exists error,
    post_webhook provider req_body w =
      handled w 500 [{| status := 500; body := error_object |}]
        [log_received; log_data req_body; log_error error].
Proof.
  intros Hn.
  destruct (webhook_try_nullish req_body (set_res w fresh_res) Hn)
    as [error Htry].
  exists error. unfold post_webhook, webhook, try_catch. rewrite Htry.
  run_handler. unfold handled. f_equal. world_eq.
Qed.

Lemma post_webhook_other (req_body : JSValue) (w : World) :
  JS.nullish req_body = false ->
  is_assistant_request req_body = false ->
  post_webhook provider req_body w =
    handled w 200 [{| status := 200; body := acknowledgment |}]
      [log_received; log_data req_body].
Proof.
  intros Hn Ht. unfold post_webhook, webhook, try_catch.
  rewrite (webhook_try_other _ _ Hn Ht). reflexivity.
Qed.

Lemma post_webhook_assistant_request (req_body : JSValue) (w : World) :
  is_assistant_request req_body = true ->
  let userMessage := JS.or (transcript_of req_body) (JString "") in
  exists response es,
    generator_run userMessage (process_env w !! "OPENAI_API_KEY") response es
    /\ post_webhook provider req_body w =
         handled w 200 [{| status := 200; body := reply_object response |}]
           ([log_received; log_data req_body; log_user userMessage]
            ++ es ++ [log_ai response]).
Proof.
  intros Ht userMessage.
  destruct (webhook_try_assistant_request req_body (set_res w fresh_res) Ht)
    as (response & es & Hrun & Htry).
  exists response, es. split; [exact Hrun |].
  unfold post_webhook, webhook, try_catch. fold userMessage in Htry.
  rewrite Htry. reflexivity.
Qed.

(** What was done while a request was handled. *)
Lemma effects_since_handled (w : World) (code : Z)
    (replies : list HttpReply) (es : list Effect) :
  effects_since w (handled w code replies es).2 = es.
Proof. by apply effects_since_app. Qed.

End Handler.

(** ** The stated properties *)

(** C1.  Called on the empty string, [generateAIResponse] returns the
    greeting and does nothing else: the process is left as it was, so
    the provider is not called.  Hence an assistant-request event whose
    transcript is absent or empty is answered with the greeting in the
    [response] field, with status 200 and without any use of the SDK. *)
Theorem greeting_on_empty_input (provider : Provider) (w : World) :
  generateAIResponse provider (JString "") w = (Normal GREETING, w)
  /\ forall req_body : JSValue,
       is_assistant_request req_body = true ->
       transcript_of req_body = JUndefined
       \/ transcript_of req_body = JString "" ->
       (post_webhook provider req_body w).1
       = [{| status := 200; body := reply_object GREETING |}]
       /\ provider_uses (effects_since w (post_webhook provider req_body w).2)
          = [].
Proof.
  split; [by apply generateAIResponse_falsy |].
  intros req_body Ht Htr.
  destruct (post_webhook_assistant_request provider req_body w Ht)
    as (response & es & Hrun & ->).
  rewrite effects_since_handled. cbn [fst handled].
  assert (Hfalsy : JS.ToBoolean (JS.or (transcript_of req_body) (JString ""))
                   = false)
    by (destruct Htr as [-> | ->]; reflexivity).
  inv_run Hrun; [done | congruence ..].
Qed.

(** C2.  When the completion request made for an assistant-request event
    with a non-empty transcript (any truthy one) resolves with a
    completion whose first choice has the string [X] as message content,
    the reply is [{response: X}] with status 200: the content is passed
    through as it is. *)
Theorem provider_content_passed_through (provider : Provider) (w : World)
    (req_body : JSValue) (apiKey : option string) (request : ChatRequest)
    (completion : Nullable ChatCompletion) (X : string) :
  is_assistant_request req_body = true ->
  JS.ToBoolean (transcript_of req_body) = true ->
  ChatCompletionsCreate apiKey request (Resolves completion)
    ∈ effects_since w (post_webhook provider req_body w).2 ->
  content_of completion = Val X ->
  (post_webhook provider req_body w).1
  = [{| status := 200; body := reply_object X |}].
Proof.
  intros Ht _ Hin HX.
  destruct (post_webhook_assistant_request provider req_body w Ht)
    as (response & es & Hrun & Hpost).
  rewrite Hpost in Hin |- *. rewrite effects_since_handled in Hin.
  cbn [fst handled]. unfold log_received, log_data, log_user, log_ai in Hin.
  inv_run Hrun; unfold log_openai_error in Hin;
    set_unfold in Hin; destruct_or?; simplify_eq.
  by rewrite HX.
Qed.

(** C3.  [generateAIResponse] never throws: it always returns a string.
    Whenever a use of the SDK made during the call fails (the
    constructor throws or the completion request is rejected, with any
    error), the string is the apology; and the assistant-request event
    during which this happens is answered [{response: apology}] with
    status 200, not 500. *)
Theorem provider_failure_absorbed (provider : Provider) (w : World) :
  (forall userMessage : JSValue,
     exists response w',
       generateAIResponse provider userMessage w = (Normal response, w'))
  /\ (forall (userMessage : JSValue) (failure : Effect),
        failure ∈ effects_since w (generateAIResponse provider userMessage w).2 ->
        is_provider_failure failure = true ->
        (generateAIResponse provider userMessage w).1 = Normal APOLOGY)
  /\ (forall (req_body : JSValue) (failure : Effect),
        is_assistant_request req_body = true ->
        failure ∈ effects_since w (post_webhook provider req_body w).2 ->
        is_provider_failure failure = true ->
        (post_webhook provider req_body w).1
        = [{| status := 200; body := reply_object APOLOGY |}]).
Proof.
  split; [| split].
  - intros userMessage.
    destruct (generateAIResponse_run provider userMessage w)
      as (response & es & _ & Hgen). eauto.
  - intros userMessage failure Hin Hfail.
    destruct (generateAIResponse_run provider userMessage w)
      as (response & es & Hrun & Hgen).
    rewrite Hgen in Hin |- *. cbn [fst snd] in *.
    rewrite (effects_since_app w _ es) in Hin by reflexivity.
    inv_run Hrun; unfold log_openai_error in Hin; try reflexivity;
      set_unfold in Hin; destruct_or?; simplify_eq; discriminate Hfail.
  - intros req_body failure Ht Hin Hfail.
    destruct (post_webhook_assistant_request provider req_body w Ht)
      as (response & es & Hrun & Hpost).
    rewrite Hpost in Hin |- *. rewrite effects_since_handled in Hin.
    cbn [fst handled]. unfold log_received, log_data, log_user, log_ai in Hin.
    inv_run Hrun; unfold log_openai_error in Hin; try reflexivity;
      set_unfold in Hin; destruct_or?; simplify_eq; discriminate Hfail.
Qed.

(** C4.  When the completion request made for an assistant-request event
    with a non-empty transcript resolves, but the first choice's message
    content is absent ([undefined], also when the choices or the message
    are missing) or [null], the reply is [{response: fallback}] with
    status 200. *)
Theorem fallback_on_missing_content (provider : Provider) (w : World)
    (req_body : JSValue) (apiKey : option string) (request : ChatRequest)
    (completion : Nullable ChatCompletion) :
  is_assistant_request req_body = true ->
  JS.ToBoolean (transcript_of req_body) = true ->
  ChatCompletionsCreate apiKey request (Resolves completion)
    ∈ effects_since w (post_webhook provider req_body w).2 ->
  content_of completion = Undefined \/ content_of completion = Null ->
  (post_webhook provider req_body w).1
  = [{| status := 200; body := reply_object FALLBACK |}].
Proof.
  intros Ht _ Hin Hc.
  destruct (post_webhook_assistant_request provider req_body w Ht)
    as (response & es & Hrun & Hpost).
  rewrite Hpost in Hin |- *. rewrite effects_since_handled in Hin.
  cbn [fst handled]. unfold log_received, log_data, log_user, log_ai in Hin.
  inv_run Hrun; unfold log_openai_error in Hin;
    set_unfold in Hin; destruct_or?; simplify_eq.
  all: by rewrite Hc.
Qed.

(** C5, as the code has it.  A request whose [message.type] is not
    ['assistant-request'] ([message] or its [type] may be missing, and
    whatever else the payload holds) is answered exactly
    [{received: true}] with status 200 when it has a body: [req.body] is
    neither [undefined] nor [null].  When it has none, the destructuring
    of line 35 throws and the answer is [{error: "Internal server
    error"}] with status 500.  In both cases the generator is not
    invoked (the line that precedes its call is not written) and the
    SDK is not used: all that is done besides are the two log lines of
    the handler's entry and, without a body, the error line. *)
Theorem other_events_acknowledged (provider : Provider) (w : World)
    (req_body : JSValue) :
  is_assistant_request req_body = false ->
  if JS.nullish req_body
  then (post_webhook provider req_body w).1
       = [{| status := 500; body := error_object |}]
       /\ exists error,
            effects_since w (post_webhook provider req_body w).2
            = [log_received; log_data req_body; log_error error]
  else (post_webhook provider req_body w).1
       = [{| status := 200; body := acknowledgment |}]
       /\ effects_since w (post_webhook provider req_body w).2
          = [log_received; log_data req_body].
Proof.
  intros Ht. destruct (JS.nullish req_body) eqn:Hn.
  - destruct (post_webhook_nullish provider req_body w Hn) as [error ->].
    rewrite effects_since_handled. split; [reflexivity | by exists error].
  - rewrite (post_webhook_other provider _ _ Hn Ht).
    by rewrite effects_since_handled.
Qed.

(** The handler's [catch], run after any computation that throws. *)
Lemma webhook_catch_run (error : JSValue) (w1 : World) :
  webhook_catch error w1
  = (Normal tt,
     set_res (add_effects w1 [log_error error])
       (send {| statusCode := 500; sent := sent (res w1) |} error_object)).
Proof. reflexivity. Qed.

(** The [try] body can only throw before anything has been sent. *)
Lemma webhook_try_throws_early (provider : Provider) (req_body : JSValue)
    (w w1 : World) (error : JSValue) :
  webhook_try provider req_body w = (Throw error, w1) ->
  res w1 = res w.
Proof.
  intros Hthrow. destruct (JS.nullish req_body) eqn:Hn.
  - destruct (webhook_try_nullish provider req_body w Hn) as [error' Htry].
    rewrite Htry in Hthrow. by simplify_eq.
  - destruct (is_assistant_request req_body) eqn:Ht.
    + destruct (webhook_try_assistant_request provider req_body w Ht)
        as (response & es & _ & Htry).
      rewrite Htry in Hthrow. discriminate Hthrow.
    + rewrite (webhook_try_other provider _ _ Hn Ht) in Hthrow.
      discriminate Hthrow.
Qed.

(** C6, as the code has it.  Whatever is thrown out of the handler's
    [try] body (that is, outside the generator's own [catch]; it only
    happens when [req.body] is [undefined] or [null]) is caught by the
    handler: the one reply is status 500 with the body
    [{error: "Internal server error"}], the same for every error, and
    the error itself only goes to [console.error].  A failure before the
    handler is entered is not caught there: a body that
    [express.json()] refuses (malformed JSON, for one) never runs the
    handler, and is answered by express's default error handler with
    the status of the parser's error and the error page built from
    it. *)
Theorem exception_becomes_500 (provider : Provider) (w : World) :
  (forall (req_body : JSValue) (error : JSValue) (w1 : World),
     webhook_try provider req_body (set_res w fresh_res) = (Throw error, w1) ->
     JS.nullish req_body = true
     /\ (post_webhook provider req_body w).1
        = [{| status := 500; body := error_object |}]
     /\ effects (post_webhook provider req_body w).2
        = effects w1 ++ [log_error error])
  /\ (forall (status : Z) (error : JSValue),
        post_pipeline provider (Refused status error) w
        = ([{| answer_status := status; payload := ErrorPage error |}], w)).
Proof.
  split; [| reflexivity].
  intros req_body error w1 Hthrow. split.
  - destruct (JS.nullish req_body) eqn:Hn; [reflexivity |].
    destruct (is_assistant_request req_body) eqn:Ht.
    + destruct (webhook_try_assistant_request provider req_body
                  (set_res w fresh_res) Ht) as (response & es & _ & Htry).
      rewrite Htry in Hthrow. discriminate Hthrow.
    + rewrite (webhook_try_other provider _ _ Hn Ht) in Hthrow.
      discriminate Hthrow.
  - pose proof (webhook_try_throws_early _ _ _ _ _ Hthrow) as Hres.
    unfold post_webhook, webhook, try_catch. rewrite Hthrow.
    rewrite webhook_catch_run. cbn [fst snd]. rewrite Hres.
    split; reflexivity.
Qed.

(** C7.  For a non-empty input string, the only request sent to the
    provider (none when the client cannot be built) has the model
    ["gpt-4"], exactly two messages, the fixed system instruction and
    one user turn whose content is the input, temperature 0.7 and
    [max_tokens] 150. *)
Theorem request_sent_to_provider (provider : Provider) (w : World)
    (s : string) :
  s <> "" ->
  requests_sent
    (effects_since w (generateAIResponse provider (JString s) w).2)
  = match construct provider (effects w)
            (process_env w !! "OPENAI_API_KEY") with
    | None =>
        [ {| model := "gpt-4";
             messages :=
               [ {| role := "system"; content := JString SYSTEM_PROMPT |};
                 {| role := "user"; content := JString s |} ];
             temperature := 0.7;
             max_tokens := 150 |} ]
    | Some _ => []
    end.
Proof.
  intros Hs.
  assert (Hb : JS.ToBoolean (JString s) = true).
  { cbn. destruct (String.eqb_spec s ""); [contradiction | reflexivity]. }
  rewrite (generateAIResponse_truthy provider _ w Hb). cbv zeta.
  destruct (construct provider _ _) as [e|];
    [| destruct (create provider _ _ _) as [completion|e] ];
    cbn [snd]; (erewrite effects_since_app by reflexivity); reflexivity.
Qed.

(** ** Every request at once *)

Lemma generator_run_credentials (userMessage : JSValue)
    (apiKey : option string) (response : string) (es : list Effect) :
  generator_run userMessage apiKey response es ->
  Forall (fun k => k = apiKey) (credentials_used es).
Proof. intros Hrun. inv_run Hrun; cbn; repeat constructor. Qed.

Lemma credentials_used_app (es1 es2 : list Effect) :
  credentials_used (es1 ++ es2) = credentials_used es1 ++ credentials_used es2.
Proof. apply omap_app. Qed.

Lemma webhook_returns (provider : Provider) (req_body : JSValue) (w : World) :
  (webhook provider req_body w).1 = Normal tt.
Proof.
  unfold webhook, try_catch.
  destruct (webhook_try provider req_body w) as [[[]|error] w1]; reflexivity.
Qed.

(** One reply of one of the three shapes, an unchanged environment, and
    no key but the one in the environment. *)
Lemma post_webhook_summary (provider : Provider) (req_body : JSValue)
    (w : World) :
  exists reply es,
    post_webhook provider req_body w = handled w (status reply) [reply] es
    /\ response_shape reply
    /\ Forall (fun k => k = process_env w !! "OPENAI_API_KEY")
         (credentials_used es).
Proof.
  destruct (JS.nullish req_body) eqn:Hn;
    [| destruct (is_assistant_request req_body) eqn:Ht ].
  - destruct (post_webhook_nullish provider req_body w Hn) as [error ->].
    exists {| status := 500; body := error_object |}; eexists.
    split; [reflexivity |]. split; [constructor |].
    cbn. constructor.
  - destruct (post_webhook_assistant_request provider req_body w Ht)
      as (response & es & Hrun & ->).
    exists {| status := 200; body := reply_object response |}; eexists.
    split; [reflexivity |]. split; [constructor |].
    rewrite !credentials_used_app. cbn. rewrite app_nil_r.
    by eapply generator_run_credentials.
  - rewrite (post_webhook_other provider _ _ Hn Ht).
    exists {| status := 200; body := acknowledgment |}; eexists.
    split; [reflexivity |]. split; [constructor |].
    cbn. constructor.
Qed.

(** Between requests nothing in the program touches [process.env]. *)
Lemma run_posts (provider : Provider) (bodies : list JSValue) :
  forall w : World,
    exists es,
      process_env (run provider (Post <$> bodies) w).2 = process_env w
      /\ effects (run provider (Post <$> bodies) w).2 = effects w ++ es
      /\ Forall (fun k => k = process_env w !! "OPENAI_API_KEY")
           (credentials_used es).
Proof.
  induction bodies as [|req_body bodies IH]; intros w.
  - exists []. cbn. rewrite app_nil_r. repeat split. constructor.
  - cbn [fmap list_fmap run step].
    destruct (post_webhook_summary provider req_body w)
      as (reply & es1 & -> & _ & Hes1).
    unfold handled.
    set (w1 := {| process_env := process_env w;
                  effects := effects w ++ es1;
                  res := _ |}).
    destruct (IH w1) as (es2 & Henv & Heff & Hes2).
    destruct (run provider (Post <$> bodies) w1) as [more w2].
    cbn [snd] in *. subst w1. cbn [process_env effects] in *. exists (es1 ++ es2). split; [exact Henv |].
    split; [by rewrite Heff, <- app_assoc |].
    rewrite credentials_used_app. apply Forall_app. split; [exact Hes1 |].
    exact Hes2.
Qed.

(** C8, as the code has it.  The credential is not copied at startup:
    each call of the generator that reaches the SDK reads
    [OPENAI_API_KEY] from [process.env] when the request is handled, and
    that value is the key of every client built and of every completion
    requested for the request.  Handling a request leaves [process.env]
    as it is, so over any sequence of webhook requests after startup
    (nothing else assigning to the environment) every provider call uses
    the value [process.env] held once [dotenv.config()] had run. *)
Theorem credential_read_from_process_env (provider : Provider) :
  (forall (w : World) (req_body : JSValue),
     process_env (post_webhook provider req_body w).2 = process_env w
     /\ Forall (fun k => k = process_env w !! "OPENAI_API_KEY")
          (credentials_used
             (effects_since w (post_webhook provider req_body w).2)))
  /\ (forall (os_env dotenv_file : gmap string string)
        (bodies : list JSValue),
        Forall (fun k => k = dotenv_config dotenv_file os_env
                             !! "OPENAI_API_KEY")
          (credentials_used
             (effects (run provider (Post <$> bodies)
                         (startup os_env dotenv_file)).2))).
Proof.
  split.
  - intros w req_body.
    destruct (post_webhook_summary provider req_body w)
      as (reply & es & -> & _ & Hes).
    by rewrite effects_since_handled.
  - intros os_env dotenv_file bodies.
    destruct (run_posts provider bodies (startup os_env dotenv_file))
      as (es & _ & -> & Hes).
    exact Hes.
Qed.

(** Over a sequence of requests, each one gets its one reply. *)
Lemma run_posts_replies (provider : Provider) (bodies : list JSValue) :
  forall w : World,
    Forall (fun replies => exists reply,
                replies = [reply] /\ response_shape reply)
      (run provider (Post <$> bodies) w).1.
Proof.
  induction bodies as [|req_body bodies IH]; intros w.
  - constructor.
  - cbn [fmap list_fmap run step].
    destruct (post_webhook_summary provider req_body w)
      as (reply & es & -> & Hshape & _).
    unfold handled.
    set (w1 := {| process_env := process_env w;
                  effects := effects w ++ es;
                  res := _ |}).
    specialize (IH w1).
    destruct (run provider (Post <$> bodies) w1) as [more w2].
    cbn [fst] in *. constructor; [by exists reply | exact IH].
Qed.

(** C9.  The handler always returns normally, having written exactly
    one reply, which is [{response: <string>}] or [{received: true}]
    with status 200, or [{error: "Internal server error"}] with status
    500; and so for each request of any sequence of them. *)
Theorem exactly_one_response (provider : Provider) (w : World) :
  (forall req_body : JSValue,
     (webhook provider req_body (set_res w fresh_res)).1 = Normal tt
     /\ exists reply,
          (post_webhook provider req_body w).1 = [reply]
          /\ response_shape reply)
  /\ (forall bodies : list JSValue,
        Forall (fun replies => exists reply,
                    replies = [reply] /\ response_shape reply)
          (run provider (Post <$> bodies) w).1).
Proof.
  split; [| intros bodies; apply run_posts_replies].
  intros req_body. split; [apply webhook_returns |].
  destruct (post_webhook_summary provider req_body w)
    as (reply & es & -> & Hshape & _).
  by exists reply.
Qed.

Lemma generator_run_behaviour (userMessage : JSValue)
    (k1 k2 : option string) (r1 r2 : string) (es1 es2 : list Effect) :
  generator_run userMessage k1 r1 es1 ->
  generator_run userMessage k2 r2 es2 ->
  provider_behaviour es1 = provider_behaviour es2 ->
  r1 = r2.
Proof.
  intros H1 H2 Hb.
  inv_run H1; inv_run H2; cbn in Hb; try congruence.
Qed.

Lemma provider_behaviour_app (es1 es2 : list Effect) :
  provider_behaviour (es1 ++ es2)
  = provider_behaviour es1 ++ provider_behaviour es2.
Proof. apply omap_app. Qed.

(** C10.  The reply is a function of the request body and of how the
    provider behaved (it failed, or it answered with some content,
    possibly none): two runs of the handler on the same body, from any
    two states of the process (environment, log and response object)
    and against any two providers, in which the provider behaved alike,
    write the same replies. *)
Theorem webhook_deterministic (provider1 provider2 : Provider)
    (w1 w2 : World) (req_body : JSValue) :
  provider_behaviour
    (effects_since w1 (post_webhook provider1 req_body w1).2)
  = provider_behaviour
      (effects_since w2 (post_webhook provider2 req_body w2).2) ->
  (post_webhook provider1 req_body w1).1
  = (post_webhook provider2 req_body w2).1.
Proof.
  destruct (JS.nullish req_body) eqn:Hn;
    [| destruct (is_assistant_request req_body) eqn:Ht ].
  - destruct (post_webhook_nullish provider1 req_body w1 Hn) as [e1 ->].
    destruct (post_webhook_nullish provider2 req_body w2 Hn) as [e2 ->].
    reflexivity.
  - destruct (post_webhook_assistant_request provider1 req_body w1 Ht)
      as (r1 & es1 & Hrun1 & ->).
    destruct (post_webhook_assistant_request provider2 req_body w2 Ht)
      as (r2 & es2 & Hrun2 & ->).
    rewrite !effects_since_handled, !provider_behaviour_app.
    cbn. rewrite !app_nil_r. intros Hb.
    by rewrite (generator_run_behaviour _ _ _ _ _ _ _ Hrun1 Hrun2 Hb).
  - rewrite (post_webhook_other provider1 _ _ Hn Ht).
    rewrite (post_webhook_other provider2 _ _ Hn Ht).
    reflexivity.
Qed.

(** ** The properties at sample requests *)

Lemma greeting_on_empty_input_witness :
  (post_webhook (stub_rejecting JNull) (assistant_request (JString ""))
     sample_world).1
  = [{| status := 200; body := reply_object GREETING |}]
  /\ provider_uses
       (effects_since sample_world
          (post_webhook (stub_rejecting JNull) (assistant_request (JString ""))
             sample_world).2)
     = [].
Proof.
  apply (proj2 (greeting_on_empty_input (stub_rejecting JNull) sample_world)).
  - reflexivity.
  - right. reflexivity.
Defined.

Lemma provider_content_passed_through_witness :
  (post_webhook (stub_resolving (completion_with (Val "X")))
     (assistant_request (JString "hi")) sample_world).1
  = [{| status := 200; body := reply_object "X" |}].
Proof.
  apply (provider_content_passed_through
           (stub_resolving (completion_with (Val "X"))) sample_world
           (assistant_request (JString "hi"))
           (Some "sk-startup") (chat_request (JString "hi"))
           (completion_with (Val "X")) "X").
  - reflexivity.
  - reflexivity.
  - vm_compute. do 4 apply list_elem_of_further. apply list_elem_of_here.
  - reflexivity.
Defined.

Lemma provider_failure_absorbed_witness :
  (post_webhook (stub_rejecting (JString "429 rate limit"))
     (assistant_request (JString "hi")) sample_world).1
  = [{| status := 200; body := reply_object APOLOGY |}].
Proof.
  apply (proj2 (proj2 (provider_failure_absorbed
                         (stub_rejecting (JString "429 rate limit"))
                         sample_world))
           (assistant_request (JString "hi"))
           (ChatCompletionsCreate (Some "sk-startup")
              (chat_request (JString "hi"))
              (Rejects (JString "429 rate limit")))).
  - reflexivity.
  - vm_compute. do 4 apply list_elem_of_further. apply list_elem_of_here.
  - reflexivity.
Defined.

Lemma fallback_on_missing_content_witness :
  (post_webhook (stub_resolving (completion_with Null))
     (assistant_request (JString "hi")) sample_world).1
  = [{| status := 200; body := reply_object FALLBACK |}].
Proof.
  apply (fallback_on_missing_content
           (stub_resolving (completion_with Null)) sample_world
           (assistant_request (JString "hi"))
           (Some "sk-startup") (chat_request (JString "hi"))
           (completion_with Null)).
  - reflexivity.
  - reflexivity.
  - vm_compute. do 4 apply list_elem_of_further. apply list_elem_of_here.
  - right. reflexivity.
Defined.

Lemma other_events_acknowledged_witness :
  let req_body :=
    JObject [("message", JObject [("type", JString "status-update");
                                  ("transcript", JString "hi")])] in
  (post_webhook (stub_rejecting JNull) req_body sample_world).1
  = [{| status := 200; body := acknowledgment |}]
  /\ effects_since sample_world
       (post_webhook (stub_rejecting JNull) req_body sample_world).2
     = [log_received; log_data req_body].
Proof.
  intros req_body.
  apply (other_events_acknowledged (stub_rejecting JNull) sample_world req_body).
  reflexivity.
Defined.

(** C5, as stated, fails.  A post that leaves [req.body] undefined has
    no [message.type], so its type is not the sentinel; it is answered
    500 with the error object, not [{received: true}]. *)
Lemma bodiless_post_not_acknowledged :
  is_assistant_request JUndefined = false
  /\ (post_webhook (stub_rejecting JNull) JUndefined sample_world).1
     = [{| status := 500; body := error_object |}]
  /\ (post_webhook (stub_rejecting JNull) JUndefined sample_world).1
     <> [{| status := 200; body := acknowledgment |}].
Proof.
  split; [reflexivity |]. split; [reflexivity |]. discriminate.
Qed.

Lemma exception_becomes_500_witness :
  JS.nullish JUndefined = true
  /\ (post_webhook (stub_rejecting JNull) JUndefined sample_world).1
     = [{| status := 500; body := error_object |}]
  /\ effects (post_webhook (stub_rejecting JNull) JUndefined sample_world).2
     = [log_received; log_data JUndefined]
       ++ [log_error
             (JS.TypeError
                "Cannot destructure property 'message' of 'req.body' as it is undefined.")].
Proof.
  apply (proj1 (exception_becomes_500 (stub_rejecting JNull) sample_world)
           JUndefined
           (JS.TypeError
              "Cannot destructure property 'message' of 'req.body' as it is undefined.")
           (add_effects (set_res sample_world fresh_res)
              [log_received; log_data JUndefined])).
  reflexivity.
Defined.

(** C6, as stated, fails.  A post whose body is not JSON is refused by
    [express.json()] before the handler is entered: the answer has the
    status of the parser's error, 400, and the error page made from that
    error, not status 500 with the fixed error object. *)
Lemma malformed_json_not_500 :
  (post_pipeline (stub_rejecting JNull) (Refused 400 malformed_json_error)
     sample_world).1
  = [{| answer_status := 400; payload := ErrorPage malformed_json_error |}]
  /\ (post_pipeline (stub_rejecting JNull) (Refused 400 malformed_json_error)
        sample_world).1
     <> [{| answer_status := 500; payload := Json error_object |}].
Proof.
  split; [reflexivity | discriminate].
Qed.

Lemma request_sent_to_provider_witness :
  requests_sent
    (effects_since sample_world
       (generateAIResponse (stub_rejecting JNull) (JString "hi")
          sample_world).2)
  = [ {| model := "gpt-4";
         messages :=
           [ {| role := "system"; content := JString SYSTEM_PROMPT |};
             {| role := "user"; content := JString "hi" |} ];
         temperature := 0.7;
         max_tokens := 150 |} ].
Proof.
  apply (request_sent_to_provider (stub_rejecting JNull) sample_world "hi").
  discriminate.
Defined.

Lemma webhook_deterministic_witness :
  (post_webhook (stub_resolving (completion_with (Val "X")))
     (assistant_request (JString "hi")) sample_world).1
  = (post_webhook
       {| construct := fun _ _ => None;
          create := fun _ _ request =>
                      Resolves
                        (Val {| choices :=
                                  Val [Val {| choice_message :=
                                                Val {| message_content := Val "X" |} |};
                                       Null] |}) |}
       (assistant_request (JString "hi"))
       (add_effects (startup ∅ ∅) [log_received])).1.
Proof.
  apply webhook_deterministic. vm_compute. reflexivity.
Defined.

(** C8, as stated, fails.  A process started with one key, whose
    environment is assigned another key afterwards, builds its client
    and requests its completion with the later key: the value is read
    from [process.env] when the request is handled, not kept from
    startup. *)
Lemma credential_follows_process_env :
  let provider := stub_resolving (completion_with (Val "X")) in
  let events := [EnvAssign "OPENAI_API_KEY" "sk-later";
                 Post (assistant_request (JString "hi"))] in
  let used := credentials_used (effects (run provider events sample_world).2) in
  process_env sample_world !! "OPENAI_API_KEY" = Some "sk-startup"
  /\ used = [Some "sk-later"; Some "sk-later"]
  /\ ~ Forall (fun k => k = process_env sample_world !! "OPENAI_API_KEY") used.
Proof.
  assert (Hused :
    credentials_used
      (effects (run (stub_resolving (completion_with (Val "X")))
                  [EnvAssign "OPENAI_API_KEY" "sk-later";
                   Post (assistant_request (JString "hi"))]
                  sample_world).2)
    = [Some "sk-later"; Some "sk-later"]) by (vm_compute; reflexivity).
  assert (Hkey : process_env sample_world !! "OPENAI_API_KEY"
                 = Some "sk-startup") by (vm_compute; reflexivity).
  cbv zeta. rewrite Hused, Hkey. split; [reflexivity |]. split; [reflexivity |].
  intros Hall. apply Forall_cons in Hall as [Habs _]. discriminate Habs.
Qed.

(** ** A few more runs *)

(** An empty string as content is content: it is passed through, not
    replaced by the fallback. *)
Example empty_content_passed_through :
  (post_webhook (stub_resolving (completion_with (Val "")))
     (assistant_request (JString "hi")) sample_world).1
  = [{| status := 200; body := reply_object "" |}].
Proof. reflexivity. Qed.

(** A completion without choices gives the fallback. *)
Example no_choices_fallback :
  (post_webhook (stub_resolving (Val {| choices := Val [] |}))
     (assistant_request (JString "hi")) sample_world).1
  = [{| status := 200; body := reply_object FALLBACK |}].
Proof. reflexivity. Qed.

(** A transcript that is [null], [0] or [false] counts as no transcript. *)
Example falsy_transcripts_greeted :
  Forall (fun transcript =>
            (post_webhook (stub_rejecting JNull) (assistant_request transcript)
               sample_world).1
            = [{| status := 200; body := reply_object GREETING |}])
    [JNull; JNumber 0; JBool false; JString ""; JUndefined].
Proof. repeat constructor. Qed.

(** A client that cannot be built is a failure like any other. *)
Example constructor_throws_apology :
  (post_webhook
     {| construct := fun _ apiKey =>
                       match apiKey with
                       | None => Some (JString "missing API key")
                       | Some _ => None
                       end;
        create := fun _ _ _ => Resolves (completion_with (Val "X")) |}
     (assistant_request (JString "hi")) (startup ∅ ∅))
  = handled (startup ∅ ∅) 200
      [{| status := 200; body := reply_object APOLOGY |}]
      [log_received; log_data (assistant_request (JString "hi"));
       log_user (JString "hi");
       NewOpenAI None (Some (JString "missing API key"));
       log_openai_error (JString "missing API key");
       log_ai APOLOGY].
Proof. reflexivity. Qed.

(** A body that is an array, a string or a number has no [message]. *)
Example odd_bodies_acknowledged :
  Forall (fun req_body =>
            (post_webhook (stub_rejecting JNull) req_body sample_world).1
            = [{| status := 200; body := acknowledgment |}])
    [JArray []; JObject []; JString "assistant-request"; JNumber 1;
     JObject [("message", JNull)];
     JObject [("message", JString "assistant-request")];
     JObject [("type", JString "assistant-request")]].
Proof. repeat constructor. Qed.

(** [dotenv.config()] does not override what the environment has. *)
Example dotenv_keeps_existing :
  process_env (startup {["OPENAI_API_KEY" := "sk-os"]}
                 {["OPENAI_API_KEY" := "sk-file"; "PORT" := "8080"]})
    !! "OPENAI_API_KEY" = Some "sk-os".
Proof. vm_compute. reflexivity. Qed.

(** * Further properties of the module *)

(** ** The webhook, path by path *)

Lemma provider_uses_app (es1 es2 : list Effect) :
  provider_uses (es1 ++ es2) = provider_uses es1 ++ provider_uses es2.
Proof. apply List.filter_app. Qed.

Lemma or_truthy (a b : JSValue) : JS.ToBoolean a = true -> JS.or a b = a.
Proof. unfold JS.or. by intros ->. Qed.

Lemma or_falsy (a b : JSValue) : JS.ToBoolean a = false -> JS.or a b = b.
Proof. unfold JS.or. by intros ->. Qed.

(** X1.  The status of the one reply is 500 exactly when the request
    came without a parsed body ([req.body] is [undefined] or [null]);
    every request with a body, whatever it holds and however the
    provider behaves, is answered with status 200. *)
Theorem status_500_iff_no_body (provider : Provider) (w : World)
    (req_body : JSValue) :
  exists reply,
    (post_webhook provider req_body w).1 = [reply]
    /\ status reply = if JS.nullish req_body then 500 else 200.
Proof.
  destruct (JS.nullish req_body) eqn:Hn;
    [| destruct (is_assistant_request req_body) eqn:Ht ].
  - destruct (post_webhook_nullish provider req_body w Hn) as [error ->].
    by eexists.
  - destruct (post_webhook_assistant_request provider req_body w Ht)
      as (response & es & _ & ->).
    by eexists.
  - rewrite (post_webhook_other provider _ _ Hn Ht). by eexists.
Qed.

(** X2.  What a webhook request does with the SDK.  When the event is an
    assistant request with a truthy transcript, one client is built with
    the key [process.env] holds at that moment and, if the constructor
    does not throw, exactly one completion is requested on it, for the
    transcript as it came (not trimmed, not converted, whatever its
    type); there is no second attempt after a failure.  In every other
    case the SDK is not touched. *)
Theorem sdk_use_per_request (provider : Provider) (w : World)
    (req_body : JSValue) :
  let uses :=
    provider_uses (effects_since w (post_webhook provider req_body w).2) in
  let apiKey := process_env w !! "OPENAI_API_KEY" in
  if is_assistant_request req_body && JS.ToBoolean (transcript_of req_body)
  then (exists e, uses = [NewOpenAI apiKey (Some e)])
       \/ (exists outcome,
             uses = [NewOpenAI apiKey None;
                     ChatCompletionsCreate apiKey
                       (chat_request (transcript_of req_body)) outcome])
  else uses = [].
Proof.
  cbv zeta.
  destruct (JS.nullish req_body) eqn:Hn;
    [| destruct (is_assistant_request req_body) eqn:Ht ].
  - assert (is_assistant_request req_body = false) as ->.
    { destruct (is_assistant_request req_body) eqn:Ht; [| done].
      destruct (assistant_request_message _ Ht). congruence. }
    destruct (post_webhook_nullish provider req_body w Hn) as [error ->].
    by rewrite effects_since_handled.
  - destruct (post_webhook_assistant_request provider req_body w Ht)
      as (response & es & Hrun & ->).
    rewrite effects_since_handled, !provider_uses_app.
    destruct (JS.ToBoolean (transcript_of req_body)) eqn:Hb; cbn [andb].
    + rewrite (or_truthy _ _ Hb) in Hrun.
      inv_run Hrun; [congruence | left | right | right]; by eexists.
    + rewrite (or_falsy _ _ Hb) in Hrun.
      inv_run Hrun; [done | discriminate ..].
  - rewrite (post_webhook_other provider _ _ Hn Ht).
    by rewrite effects_since_handled.
Qed.

(** X3.  A transcript that is falsy without being the empty string
    ([null], [0], [-0], [NaN], [false]) is treated like a missing one:
    the utterance becomes [''], which is what the log shows, the
    greeting is sent, and nothing else happens. *)
Theorem falsy_transcript_is_first_turn (provider : Provider) (w : World)
    (req_body : JSValue) :
  is_assistant_request req_body = true ->
  JS.ToBoolean (transcript_of req_body) = false ->
  post_webhook provider req_body w
  = handled w 200 [{| status := 200; body := reply_object GREETING |}]
      [log_received; log_data req_body; log_user (JString "");
       log_ai GREETING].
Proof.
  intros Ht Hb.
  destruct (post_webhook_assistant_request provider req_body w Ht)
    as (response & es & Hrun & ->).
  rewrite (or_falsy _ _ Hb) in Hrun |- *.
  inv_run Hrun; [reflexivity | discriminate ..].
Qed.

(** X4.  Every request is logged before anything else is done with it:
    whatever the body and the path taken (the error path included), the
    first two console lines are the notice and the whole body,
    stringified.  For an assistant request the third line is the
    utterance handed to the generator and the last line is the text of
    the reply, the same text that is sent. *)
Theorem exchange_logged (provider : Provider) (w : World)
    (req_body : JSValue) :
  (exists rest,
     effects_since w (post_webhook provider req_body w).2
     = log_received :: log_data req_body :: rest)
  /\ (is_assistant_request req_body = true ->
      exists response middle,
        (post_webhook provider req_body w).1
        = [{| status := 200; body := reply_object response |}]
        /\ effects_since w (post_webhook provider req_body w).2
           = [log_received; log_data req_body;
              log_user (JS.or (transcript_of req_body) (JString ""))]
             ++ middle ++ [log_ai response]).
Proof.
  split.
  - destruct (JS.nullish req_body) eqn:Hn;
      [| destruct (is_assistant_request req_body) eqn:Ht ].
    + destruct (post_webhook_nullish provider req_body w Hn) as [error ->].
      rewrite effects_since_handled. by eexists.
    + destruct (post_webhook_assistant_request provider req_body w Ht)
        as (response & es & _ & ->).
      rewrite effects_since_handled. by eexists.
    + rewrite (post_webhook_other provider _ _ Hn Ht).
      rewrite effects_since_handled. by eexists.
  - intros Ht.
    destruct (post_webhook_assistant_request provider req_body w Ht)
      as (response & es & _ & ->).
    rewrite effects_since_handled. by exists response, es.
Qed.

(** X5.  A failure of the SDK never goes unreported to the operator, and
    nothing is reported that did not happen: the value the constructor
    threw, or the completion request was rejected with, is written to
    [console.error]; and a [console.error] line is only written when the
    request had no body or a use of the SDK failed. *)
Theorem provider_failure_logged (provider : Provider) (w : World)
    (req_body : JSValue) :
  let es := effects_since w (post_webhook provider req_body w).2 in
  (forall apiKey e, NewOpenAI apiKey (Some e) ∈ es -> log_openai_error e ∈ es)
  /\ (forall apiKey request e,
        ChatCompletionsCreate apiKey request (Rejects e) ∈ es ->
        log_openai_error e ∈ es)
  /\ (forall args,
        ConsoleError args ∈ es ->
        JS.nullish req_body = true
        \/ exists failure, failure ∈ es /\ is_provider_failure failure = true).
Proof.
  cbv zeta.
  destruct (JS.nullish req_body) eqn:Hn;
    [| destruct (is_assistant_request req_body) eqn:Ht ].
  - destruct (post_webhook_nullish provider req_body w Hn) as [error ->].
    rewrite effects_since_handled.
    unfold log_received, log_data, log_error, log_openai_error.
    repeat split; intros; [in_log .. | by left].
  - destruct (post_webhook_assistant_request provider req_body w Ht)
      as (response & es & Hrun & ->).
    rewrite effects_since_handled.
    unfold log_received, log_data, log_user, log_ai.
    inv_run Hrun; unfold log_openai_error.
    + repeat split; intros; in_log.
    + repeat split; intros; [in_log .. |].
      right.
      exists (NewOpenAI (process_env w !! "OPENAI_API_KEY") (Some e)).
      split; [| reflexivity]. in_log.
    + repeat split; intros; [in_log .. |].
      right.
      exists (ChatCompletionsCreate (process_env w !! "OPENAI_API_KEY")
                (chat_request (JS.or (transcript_of req_body) (JString "")))
                (Rejects e)).
      split; [| reflexivity]. in_log.
    + repeat split; intros; in_log.
  - rewrite (post_webhook_other provider _ _ Hn Ht).
    rewrite effects_since_handled. unfold log_received, log_data.
    repeat split; intros; in_log.
Qed.

(** X6.  Without [OPENAI_API_KEY] in the environment the generator does
    not stop short: it builds the client with an undefined key.  Against
    an SDK whose constructor refuses a missing key, every assistant
    request with an utterance is then answered with the apology and
    status 200, and no completion is requested. *)
Theorem missing_api_key (provider : Provider) (w : World)
    (req_body : JSValue) :
  process_env w !! "OPENAI_API_KEY" = None ->
  (forall history, construct provider history None <> None) ->
  is_assistant_request req_body = true ->
  JS.ToBoolean (transcript_of req_body) = true ->
  (post_webhook provider req_body w).1
  = [{| status := 200; body := reply_object APOLOGY |}]
  /\ requests_sent (effects_since w (post_webhook provider req_body w).2) = []
  /\ exists e,
       NewOpenAI None (Some e)
       ∈ effects_since w (post_webhook provider req_body w).2.
Proof.
  intros Hkey Hrefuse Ht Hb.
  destruct (assistant_request_message _ Ht) as [Hn Hm].
  pose proof (assistant_request_type _ Ht) as Hty.
  unfold post_webhook. run_handler. rewrite Hn, Hty, Hm.
  fold (transcript_of req_body). rewrite (or_truthy _ _ Hb).
  match goal with
  | |- context [generateAIResponse provider _ ?W] =>
      rewrite (generateAIResponse_truthy provider _ W Hb)
  end.
  cbv zeta. cbn [process_env effects]. rewrite Hkey.
  match goal with
  | |- context [construct provider ?h None] =>
      destruct (construct provider h None) as [e|] eqn:Hc;
        [| by destruct (Hrefuse h) ]
  end.
  cbn [fst snd add_effects process_env effects res send sent statusCode].
  split; [reflexivity |]. unfold effects_since. cbn [effects].
  rewrite <- !app_assoc, drop_app_length. split; [reflexivity |].
  exists e. cbn [app]. in_log.
Qed.

(** X7.  The handler makes up no text of its own: the text of a reply is
    one of the three fixed strings of the generator, or else it is the
    content of the first choice of a completion the provider returned
    while this very request was handled. *)
Theorem reply_text_origin (provider : Provider) (w : World)
    (req_body : JSValue) :
  is_assistant_request req_body = true ->
  exists response,
    (post_webhook provider req_body w).1
    = [{| status := 200; body := reply_object response |}]
    /\ (response ∈ fixed_texts
        \/ exists apiKey request completion,
             ChatCompletionsCreate apiKey request (Resolves completion)
             ∈ effects_since w (post_webhook provider req_body w).2
             /\ content_of completion = Val response).
Proof.
  intros Ht.
  destruct (post_webhook_assistant_request provider req_body w Ht)
    as (response & es & Hrun & ->).
  rewrite effects_since_handled. exists response. split; [reflexivity |].
  unfold fixed_texts.
  inv_run Hrun; [left; in_log .. |].
  destruct (content_of completion) as [| |text] eqn:Hc; cbn [JS.coalesce].
  - left. in_log.
  - left. in_log.
  - right.
    exists (process_env w !! "OPENAI_API_KEY"),
      (chat_request (JS.or (transcript_of req_body) (JString ""))),
      completion.
    split; [| exact Hc]. in_log.
Qed.

(** ** The port *)

(** X8.  Whatever the environment holds and whatever [Number] makes of
    it, the port handed to [app.listen] is a number that is neither
    [NaN] nor zero: it is 3000, or the conversion of the [PORT]
    variable.  In particular [PORT=0] does not select a random port. *)
Theorem port_never_zero_or_nan (StringToNumber : string -> float)
    (env : gmap string string) :
  exists n,
    PORT StringToNumber env = JNumber n
    /\ is_zero n = false /\ is_nan n = false
    /\ (n = 3000%float
        \/ exists s, env !! "PORT" = Some s /\ n = StringToNumber s).
Proof.
  unfold PORT, JS.or, ToNumber.
  destruct (env !! "PORT") as [s|] eqn:Hs.
  - destruct (JS.ToBoolean (JNumber (StringToNumber s))) eqn:Hb.
    + exists (StringToNumber s). cbn in Hb.
      apply negb_true_iff, orb_false_iff in Hb as [Hz Hnan]. eauto 10.
    + exists 3000%float. repeat split; auto.
  - exists 3000%float. repeat split; auto.
Qed.

(** X9.  The port comes from the operating system's environment first
    and from the [.env] file second ([dotenv.config()] has run when
    [PORT] is read, and does not override); when neither has a [PORT],
    or the one that counts converts to [NaN] or zero, it is 3000. *)
Theorem port_precedence (StringToNumber : string -> float)
    (os_env dotenv_file : gmap string string) :
  PORT StringToNumber (process_env (startup os_env dotenv_file))
  = match os_env !! "PORT", dotenv_file !! "PORT" with
    | Some s, _ | None, Some s =>
        JS.or (JNumber (StringToNumber s)) (JNumber 3000)
    | None, None => JNumber 3000
    end.
Proof.
  unfold PORT, startup, dotenv_config. cbn [process_env].
  destruct (os_env !! "PORT") as [s|] eqn:Hos.
  - by rewrite (lookup_union_Some_l _ _ _ _ Hos).
  - rewrite (lookup_union_r _ _ _ Hos).
    by destruct (dotenv_file !! "PORT").
Qed.

(** ** The three routes together *)

Lemma requests_sent_app (es1 es2 : list Effect) :
  requests_sent (es1 ++ es2) = requests_sent es1 ++ requests_sent es2.
Proof. apply omap_app. Qed.

Lemma generator_run_requests (userMessage : JSValue)
    (apiKey : option string) (response : string) (es : list Effect) :
  generator_run userMessage apiKey response es ->
  (length (requests_sent es) <= Nat.b2n (JS.ToBoolean userMessage))%nat.
Proof. intros Hrun. inv_run Hrun; rewrite ?H; cbn; lia. Qed.

(** What was called of the SDK for one webhook post. *)
Lemma post_webhook_requests (provider : Provider) (req_body : JSValue)
    (w : World) :
  exists reply es,
    post_webhook provider req_body w = handled w (status reply) [reply] es
    /\ response_shape reply
    /\ status reply = (if JS.nullish req_body then 500 else 200)
    /\ (length (requests_sent es)
        <= Nat.b2n (is_assistant_request req_body
                    && JS.ToBoolean (transcript_of req_body)))%nat.
Proof.
  destruct (JS.nullish req_body) eqn:Hn;
    [| destruct (is_assistant_request req_body) eqn:Ht ].
  - destruct (post_webhook_nullish provider req_body w Hn) as [error ->].
    exists {| status := 500; body := error_object |}; eexists.
    split; [reflexivity |]. split; [constructor |]. split; [done |].
    cbn; lia.
  - destruct (post_webhook_assistant_request provider req_body w Ht)
      as (response & es & Hrun & ->).
    exists {| status := 200; body := reply_object response |}; eexists.
    split; [reflexivity |]. split; [constructor |]. split; [done |].
    rewrite !requests_sent_app. cbn. rewrite app_nil_r.
    apply generator_run_requests in Hrun.
    destruct (JS.ToBoolean (transcript_of req_body)) eqn:Hb.
    + by rewrite (or_truthy _ _ Hb), Hb in Hrun.
    + by rewrite (or_falsy _ _ Hb) in Hrun.
  - rewrite (post_webhook_other provider _ _ Hn Ht).
    exists {| status := 200; body := acknowledgment |}; eexists.
    split; [reflexivity |]. split; [constructor |]. split; [done |].
    cbn; lia.
Qed.

(** What one request to the application does. *)
Lemma app_summary (provider : Provider) (rq : Request) (w : World) :
  exists answer code sent_replies es,
    app provider rq w
    = ([answer],
       {| process_env := process_env w;
          effects := effects w ++ es;
          res := {| statusCode := code; sent := sent_replies |} |})
    /\ (length (requests_sent es) <= Nat.b2n (reaches_provider rq))%nat
    /\ match body_parser rq, route rq with
       | Refused status error, _ =>
           answer = default_error_answer status error
       | Parsed _, GetRoot timestamp =>
           answer
           = on_the_wire (fresh rq)
               {| status := 200;
                  body := JObject
                            [("status", JString "ok");
                             ("message",
                              JString "Vapi Lead Nurture Agent API is running!");
                             ("timestamp", JString timestamp)] |}
       | Parsed _, GetHealth =>
           answer
           = on_the_wire (fresh rq)
               {| status := 200;
                  body := JObject [("status", JString "healthy")] |}
       | Parsed req_body, PostWebhook =>
           exists reply,
             answer = {| answer_status := status reply;
                         payload := Json (body reply) |}
             /\ response_shape reply
             /\ status reply = if JS.nullish req_body then 500 else 200
       end.
Proof.
  destruct rq as [[req_body|status error] req_fresh rt];
    unfold app, reaches_provider; cbn [body_parser route fresh].
  - destruct rt as [timestamp| |].
    + eexists _, _, _, []. split; [| split; [cbn; lia | reflexivity] ].
      unfold get_root, res_json, set_res, send, fresh_res.
      cbn. by rewrite app_nil_r.
    + eexists _, _, _, []. split; [| split; [cbn; lia | reflexivity] ].
      unfold get_health, res_json, set_res, send, fresh_res.
      cbn. by rewrite app_nil_r.
    + destruct (post_webhook_requests provider req_body w)
        as (reply & es & Hpost & Hshape & Hstatus & Hes).
      unfold post_pipeline. rewrite Hpost. unfold handled.
      eexists _, _, _, es. split; [reflexivity |]. split; [exact Hes |].
      exists reply. split; [| done].
      unfold on_the_wire. by rewrite andb_false_l.
  - exists (default_error_answer status error), (statusCode (res w)),
      (sent (res w)), [].
    split; [| split; [destruct rt; cbn; lia | by destruct rt] ].
    destruct rt; rewrite app_nil_r; by destruct w as [? ? []].
Qed.

(** X10.  Over any sequence of GET and POST requests that match the
    three routes, each request gets exactly one answer.  One whose body
    [express.json()] refuses gets the status of the parser's error and
    express's error page, whatever its route.  Otherwise [GET /] and
    [GET /api/health] answer with their fixed objects (the root one with
    the time of the request) and status 200, or 304 without a body when
    express finds the request fresh, whatever the environment holds,
    whatever was handled before and however the provider behaves; and a
    webhook post gets one of the handler's three replies, with status
    500 only when [req.body] is [undefined] or [null]. *)
Theorem every_route_replies_once (provider : Provider) (rqs : list Request) :
  forall w : World,
    Forall2
      (fun rq answers =>
         match body_parser rq, route rq with
         | Refused status error, _ =>
             answers = [{| answer_status := status;
                           payload := ErrorPage error |}]
         | Parsed _, GetRoot timestamp =>
             answers
             = [if fresh rq
                then {| answer_status := 304; payload := NoBody |}
                else {| answer_status := 200;
                        payload :=
                          Json (JObject
                                  [("status", JString "ok");
                                   ("message",
                                    JString "Vapi Lead Nurture Agent API is running!");
                                   ("timestamp", JString timestamp)]) |}]
         | Parsed _, GetHealth =>
             answers
             = [if fresh rq
                then {| answer_status := 304; payload := NoBody |}
                else {| answer_status := 200;
                        payload :=
                          Json (JObject [("status", JString "healthy")]) |}]
         | Parsed req_body, PostWebhook =>
             exists reply,
               answers = [{| answer_status := status reply;
                             payload := Json (body reply) |}]
               /\ response_shape reply
               /\ status reply = if JS.nullish req_body then 500 else 200
         end)
      rqs (serve provider rqs w).1.
Proof.
  induction rqs as [|rq rqs IH]; intros w; [constructor |].
  cbn [serve].
  destruct (app_summary provider rq w)
    as (answer & code & sent_replies & es & -> & _ & Hrq).
  set (w1 := {| process_env := process_env w;
                effects := effects w ++ es;
                res := _ |}).
  specialize (IH w1).
  destruct (serve provider rqs w1) as [more w2].
  cbn [fst] in *. constructor; [| exact IH].
  destruct (body_parser rq) as [req_body|status error];
    [destruct (route rq) as [timestamp| |] | ].
  - rewrite Hrq. unfold on_the_wire. by destruct (fresh rq).
  - rewrite Hrq. unfold on_the_wire. by destruct (fresh rq).
  - destruct Hrq as (reply & -> & Hshape & Hstatus). by exists reply.
  - by rewrite Hrq.
Qed.

(** The log after a sequence of requests. *)
Lemma serve_requests_sent (provider : Provider) (rqs : list Request) :
  forall w : World,
    exists es,
      effects (serve provider rqs w).2 = effects w ++ es
      /\ (length (requests_sent es)
          <= length (List.filter reaches_provider rqs))%nat.
Proof.
  induction rqs as [|rq rqs IH]; intros w.
  - exists []. cbn. by rewrite app_nil_r.
  - cbn [serve List.filter].
    destruct (app_summary provider rq w)
      as (answer & code & sent_replies & es1 & -> & Hes1 & _).
    set (w1 := {| process_env := process_env w;
                  effects := effects w ++ es1;
                  res := _ |}).
    destruct (IH w1) as (es2 & Heff & Hes2).
    destruct (serve provider rqs w1) as [more w2].
    cbn [snd] in *. subst w1. cbn [effects] in Heff.
    exists (es1 ++ es2). split; [by rewrite Heff, <- app_assoc |].
    rewrite requests_sent_app, length_app.
    destruct (reaches_provider rq); cbn [Nat.b2n length] in *; lia.
Qed.

(** X11.  The handlers call [openai.chat.completions.create] at most
    once per webhook post that has a parsed body and is an assistant
    request with an utterance, and never on account of anything else:
    over any sequence of requests, the calls of [create] are no more
    than those posts.  Health checks, other events, first turns,
    bodiless and refused posts lead to no call, and the handler does not
    call again after a call has failed (what the SDK does within one
    call, its own retries included, is the SDK's). *)
Theorem provider_requests_bounded (provider : Provider)
    (rqs : list Request) (w : World) :
  (length (requests_sent (effects_since w (serve provider rqs w).2))
   <= length (List.filter reaches_provider rqs))%nat.
Proof.
  destruct (serve_requests_sent provider rqs w) as (es & Heff & Hes).
  by rewrite (effects_since_app _ _ _ Heff).
Qed.

(** ** The further properties at sample requests *)

Lemma falsy_transcript_is_first_turn_witness :
  post_webhook (stub_rejecting JNull) (assistant_request (JNumber 0))
    sample_world
  = handled sample_world 200
      [{| status := 200; body := reply_object GREETING |}]
      [log_received; log_data (assistant_request (JNumber 0));
       log_user (JString ""); log_ai GREETING].
Proof.
  apply (falsy_transcript_is_first_turn (stub_rejecting JNull) sample_world
           (assistant_request (JNumber 0))).
  - reflexivity.
  - reflexivity.
Defined.

Lemma exchange_logged_witness :
  exists response middle,
    (post_webhook (stub_resolving (completion_with (Val "X")))
       (assistant_request (JString "hi")) sample_world).1
    = [{| status := 200; body := reply_object response |}]
    /\ effects_since sample_world
         (post_webhook (stub_resolving (completion_with (Val "X")))
            (assistant_request (JString "hi")) sample_world).2
       = [log_received; log_data (assistant_request (JString "hi"));
          log_user (JS.or (transcript_of (assistant_request (JString "hi")))
                      (JString ""))]
         ++ middle ++ [log_ai response].
Proof.
  apply (proj2 (exchange_logged (stub_resolving (completion_with (Val "X")))
                  sample_world (assistant_request (JString "hi")))).
  reflexivity.
Defined.

Lemma provider_failure_logged_witness :
  log_openai_error (JString "429 rate limit")
  ∈ effects_since sample_world
      (post_webhook (stub_rejecting (JString "429 rate limit"))
         (assistant_request (JString "hi")) sample_world).2.
Proof.
  apply (proj1 (proj2 (provider_failure_logged
                         (stub_rejecting (JString "429 rate limit"))
                         sample_world (assistant_request (JString "hi"))))
           (Some "sk-startup") (chat_request (JString "hi"))
           (JString "429 rate limit")).
  vm_compute. do 4 apply list_elem_of_further. apply list_elem_of_here.
Defined.

Lemma missing_api_key_witness :
  let provider :=
    {| construct := fun _ apiKey =>
                      match apiKey with
                      | None => Some (JString "missing API key")
                      | Some _ => None
                      end;
       create := fun _ _ _ => Resolves (completion_with (Val "X")) |} in
  (post_webhook provider (assistant_request (JString "hi")) (startup ∅ ∅)).1
  = [{| status := 200; body := reply_object APOLOGY |}]
  /\ requests_sent
       (effects_since (startup ∅ ∅)
          (post_webhook provider (assistant_request (JString "hi"))
             (startup ∅ ∅)).2)
     = []
  /\ exists e,
       NewOpenAI None (Some e)
       ∈ effects_since (startup ∅ ∅)
           (post_webhook provider (assistant_request (JString "hi"))
              (startup ∅ ∅)).2.
Proof.
  intros provider.
  apply (missing_api_key provider (startup ∅ ∅)
           (assistant_request (JString "hi"))).
  - vm_compute. reflexivity.
  - intros history. discriminate.
  - reflexivity.
  - reflexivity.
Defined.

Lemma reply_text_origin_witness :
  exists response,
    (post_webhook (stub_resolving (completion_with (Val "X")))
       (assistant_request (JString "hi")) sample_world).1
    = [{| status := 200; body := reply_object response |}]
    /\ (response ∈ fixed_texts
        \/ exists apiKey request completion,
             ChatCompletionsCreate apiKey request (Resolves completion)
             ∈ effects_since sample_world
                 (post_webhook (stub_resolving (completion_with (Val "X")))
                    (assistant_request (JString "hi")) sample_world).2
             /\ content_of completion = Val response).
Proof.
  apply (reply_text_origin (stub_resolving (completion_with (Val "X")))
           sample_world (assistant_request (JString "hi"))).
  reflexivity.
Defined.
